(** * sr.robot3.accelerometer_board: discovery, identification and commands

    A shallow embedding of [src/sr/robot3/accelerometer_board.py].

    The Python class talks to three things that live outside the file: the
    serial transport ([SerialWrapper]), the simulator's registry of virtual
    boards ([get_simulator_boards]) and a few builtins ([float], [repr],
    [logging], [atexit]).  The transport, the registry and the two builtin
    functions are gathered in the record [Collaborators]; logging and the
    exit-hook list are components of the explicit program [State].

    Every method becomes a function in a state-and-exception monad [M]:
    a Python [raise] is the [Raise] outcome, [try: ... except ...:] is
    [try_except], and side effects made before an exception is raised stay
    in the state, as they do in Python. *)

From Stdlib Require Import ZArith Ascii String.
From stdpp Require Import base strings list gmap.

Local Open Scope string_scope.

(** ** Strings: [str.split] with a one-character separator *)

(** [split sep s] is Python's [s.split(sep)] for a separator of length one:
    the fields between consecutive separators, empty fields included, so the
    result has one more element than [s] has separators. *)
Fixpoint split (sep : ascii) (s : string) : list string :=
  match s with
  | EmptyString => [EmptyString]
  | String c rest =>
      if decide (c = sep) then EmptyString :: split sep rest
      else match split sep rest with
           | [] => [String c EmptyString]
           | field :: fields => String c field :: fields
           end
  end.

(** [join sep fields] is [sep.join(fields)]. *)
Fixpoint join (sep : ascii) (fields : list string) : string :=
  match fields with
  | [] => EmptyString
  | [f] => f
  | f :: fs => f ++ String sep (join sep fs)
  end.

(** [s] holds no occurrence of [sep]. *)
Fixpoint sep_free (sep : ascii) (s : string) : Prop :=
  match s with
  | EmptyString => True
  | String c rest => c ≠ sep ∧ sep_free sep rest
  end.

(** ** Exceptions and log records *)

(** The instances of [Exception] that can travel through this module.
    [TransportError] stands for whatever the serial layer raises (port
    cannot be opened, timeout, disconnection); the serial layer never
    raises [IncorrectBoardError], which only [__init__] constructs.
    [TypeError] is what [BoardIdentity] raises on a fifth positional
    argument and [ValueError] what [float] raises on a string it refuses.
    Signals that derive from [BaseException] alone ([KeyboardInterrupt],
    [SystemExit]) are not failures of a board and are not modelled. *)
Inductive exn : Type :=
  | IncorrectBoardError (returned_type expected_type : string)
  | TypeError
  | ValueError (field : string)
  | TransportError (description : string).

Inductive levelname : Type := DEBUG | WARNING.

Record LogRecord : Type := { level : levelname; message : string }.

(** ** Data from [utils] *)

(** Modelled from the spec: the declaration of [BoardIdentity] is in
    [utils.py], which is not among the sources.  The spec gives its four
    string fields in order and says that the default identity has every
    field empty; the source calls it with no argument, with three keyword
    arguments and with the unpacked fields of a reply. *)
Record BoardIdentity : Type := {
  manufacturer : string;
  board_type : string;
  asset_tag : string;
  software_version : string;
}.

(** [BoardIdentity] applied to unpacked positional arguments: they arguments fill the fields from the
    left, absent ones keep the default, a fifth argument is a [TypeError]. *)
Definition BoardIdentity_of (args : list string) : exn + BoardIdentity :=
  match args with
  | [] => inr {| manufacturer := EmptyString; board_type := EmptyString; asset_tag := EmptyString; software_version := EmptyString |}
  | [m] => inr {| manufacturer := m; board_type := EmptyString; asset_tag := EmptyString; software_version := EmptyString |}
  | [m; b] => inr {| manufacturer := m; board_type := b; asset_tag := EmptyString; software_version := EmptyString |}
  | [m; b; a] => inr {| manufacturer := m; board_type := b; asset_tag := a; software_version := EmptyString |}
  | [m; b; a; v] => inr {| manufacturer := m; board_type := b; asset_tag := a; software_version := v |}
  | _ => inl TypeError
  end.

(** One entry of the simulator's registry. *)
Record BoardInfo : Type := {
  url : string;
  type_str : string;
  serial_number : string;
}.

(** ** External collaborators *)

(** The result of one exchange with the serial layer. *)
Inductive io_result (A : Type) : Type :=
  | Reply (a : A)
  | Failure (description : string).
Arguments Reply {A} a.
Arguments Failure {A} description.

Record Collaborators : Type := {
  (** the devices, the simulator and everything else outside the process *)
  World : Type;
  (** [SerialWrapper(port, baud, identity=...)] *)
  serial_open : string → Z → BoardIdentity → World → World * io_result unit;
  (** [SerialWrapper.query(command)] on the wrapper bound to [port], [baud] *)
  serial_query : string → Z → string → World → World * io_result string;
  (** [utils.get_simulator_boards(family)], which reads the registry and
      returns a list *)
  get_simulator_boards : string → World → list BoardInfo;
  (** [utils.IN_SIMULATOR] *)
  IN_SIMULATOR : bool;
  (** Python's [float] type and the builtin [float(str)], [None] when it
      raises [ValueError] *)
  pyfloat : Type;
  float : string → option pyfloat;
  (** the builtin [repr] on [str], as used by [{...!r}] in f-strings *)
  repr : string → string;
}.

(** A Python sequence of floats: the two shapes [acceleration] could return. *)
Inductive pyseq (F : Type) : Type :=
  | PyList (items : list F)
  | PyTuple (items : list F).
Arguments PyList {F} items.
Arguments PyTuple {F} items.

(** ** Objects *)

(** A [SerialWrapper] object.  Its port and baud rate never change and are
    kept in the reference itself; its cached identity is mutable and lives
    in the store, at index [ref]. *)
Record SerialWrapper : Type := { ref : nat; port : string; baud : Z }.

(** An [AccelerometerBoard] object, with its two slots. *)
Record AccelerometerBoard : Type := {
  _serial : SerialWrapper;
  _identity : BoardIdentity;
}.

Definition BAUDRATE : Z := 115200.

(** [AccelerometerBoard.get_board_type()] *)
Definition get_board_type : string := "Accelerometer".

(** ** Program state and the monad of methods *)

(** What running a method leaves behind: a value, or a raised exception. *)
Inductive outcome (A : Type) : Type :=
  | Return (a : A)
  | Raise (e : exn).
Arguments Return {A} a.
Arguments Raise {A} e.

Section Program.

Context {C : Collaborators}.

Record State : Type := {
  world : World C;
  (** cached identity of every [SerialWrapper] created so far *)
  identities : list BoardIdentity;
  (** records emitted through [logger], oldest first *)
  records : list LogRecord;
  (** boards whose [_cleanup] was passed to [atexit.register] *)
  exit_hooks : list AccelerometerBoard;
}.

(** The state after the outside world moved to [w] and nothing else changed. *)
Definition with_world (s : State) (w : World C) : State :=
  {| world := w; identities := identities s;
     records := records s; exit_hooks := exit_hooks s |}.

(** The state after one more warning was logged. *)
Definition with_warning (s : State) (msg : string) : State :=
  {| world := world s; identities := identities s;
     records := records s ++ [{| level := WARNING; message := msg |}];
     exit_hooks := exit_hooks s |}.

Definition M (A : Type) : Type := State → State * outcome A.

Definition ret {A} (a : A) : M A := λ s, (s, Return a).

Definition raise {A} (e : exn) : M A := λ s, (s, Raise e).

Definition bind {A B} (m : M A) (k : A → M B) : M B :=
  λ s, match m s with
       | (s', Return a) => k a s'
       | (s', Raise e) => (s', Raise e)
       end.

(** [try: m  except Exception as err: handler err] *)
Definition try_except {A} (m : M A) (handler : exn → M A) : M A :=
  λ s, match m s with
       | (s', Return a) => (s', Return a)
       | (s', Raise e) => handler e s'
       end.

Notation "'let*' x ':=' m 'in' k" := (bind m (λ x, k))
  (at level 10, x name, m at level 100, k at level 200).
Notation "m ';;;' k" := (bind m (λ _, k))
  (at level 100, k at level 200, right associativity).

(** [logger.warning(msg)] *)
Definition logger_warning (msg : string) : M unit :=
  λ s, (with_warning s msg, Return tt).

(** [atexit.register(board._cleanup)] *)
Definition atexit_register (board : AccelerometerBoard) : M unit :=
  λ s, ({| world := world s; identities := identities s;
           records := records s;
           exit_hooks := exit_hooks s ++ [board] |}, Return tt).

(** [SerialWrapper(port, baud, identity=initial)]: a new object whose
    cached identity starts as [initial]. *)
Definition SerialWrapper_new (serial_port : string) (baudrate : Z)
    (initial : BoardIdentity) : M SerialWrapper :=
  λ s, match serial_open C serial_port baudrate initial (world s) with
       | (w, Failure d) => (with_world s w, Raise (TransportError d))
       | (w, Reply _) =>
           ({| world := w; identities := identities s ++ [initial];
               records := records s; exit_hooks := exit_hooks s |},
            Return {| ref := length (identities s);
                      port := serial_port; baud := baudrate |})
       end.

(** [serial.query(command)] *)
Definition query (serial : SerialWrapper) (command : string) : M string :=
  λ s, match serial_query C (port serial) (baud serial) command (world s) with
       | (w, Reply line) => (with_world s w, Return line)
       | (w, Failure d) => (with_world s w, Raise (TransportError d))
       end.

(** [serial.set_identity(resolved)] *)
Definition set_identity (serial : SerialWrapper) (resolved : BoardIdentity) : M unit :=
  λ s, ({| world := world s;
           identities := <[ref serial := resolved]> (identities s);
           records := records s; exit_hooks := exit_hooks s |}, Return tt).

(** The identity a [SerialWrapper] currently caches. *)
Definition get_identity (serial : SerialWrapper) (s : State) : option BoardIdentity :=
  identities s !! ref serial.

(** Lifting of a pure computation that may raise. *)
Definition lift {A} (r : exn + A) : M A :=
  match r with
  | inl e => raise e
  | inr a => ret a
  end.

(** ** The methods of [AccelerometerBoard]

    The decorator [log_to_debug] comes from [logging.py], outside the
    sources; it records the call at debug level and hands the result of the
    method through, so the decorated methods are modelled by their bodies. *)

(** [identify(self)], which reads only [self._serial]; it is also called by
    [__init__] before [self._identity] exists, hence the argument. *)
Definition identify (serial : SerialWrapper) : M BoardIdentity :=
  let* response := query serial "*IDN?" in
  lift (BoardIdentity_of (split ":" response)).


(** [reset(self)] *)
Definition reset (self : AccelerometerBoard) : M string :=
  query (_serial self) "*RESET".

(** [[float(x) for x in fields]]: the first field that [float] refuses
    raises [ValueError]. *)
Fixpoint floats (fields : list string) : exn + list (pyfloat C) :=
  match fields with
  | [] => inr []
  | x :: rest =>
      match float C x with
      | None => inl (ValueError x)
      | Some v =>
          match floats rest with
          | inl e => inl e
          | inr vs => inr (v :: vs)
          end
      end
  end.

(** [acceleration] (a property) *)
Definition acceleration (self : AccelerometerBoard) : M (pyseq (pyfloat C)) :=
  let* response := query (_serial self) "ACC:READ?" in
  let* values := lift (floats (split ":" response)) in
  ret (PyList values).

(** The four warnings of [_get_valid_board] and the one of [_cleanup],
    as their f-strings build them. *)
Definition wrong_type_warning (returned_type expected_type : string) : string :=
  "Board returned type " ++ repr C returned_type ++ ", "
  ++ "expected " ++ repr C expected_type ++ ". Ignoring this device".

Definition manual_warning (serial_port : string) : string :=
  "Manually specified accelerometer board at port " ++ repr C serial_port ++ ", "
  ++ "could not be identified. Ignoring this device".

Definition simulator_warning (serial_port : string) : string :=
  "Simulator specified accelerometer board at port " ++ repr C serial_port ++ ", "
  ++ "could not be identified. Ignoring this device".

Definition generic_warning (serial_port : string) : string :=
  "Found accelerometer board-like serial port at " ++ repr C serial_port ++ ", "
  ++ "but it could not be identified. Ignoring this device".

Definition cleanup_warning (self : AccelerometerBoard) : string :=
  "Failed to cleanup servo board " ++ asset_tag (_identity self) ++ ".".

(** [_cleanup(self)] *)
Definition _cleanup (self : AccelerometerBoard) : M unit :=
  try_except
    (reset self ;;; ret tt)
    (λ _, logger_warning (cleanup_warning self)).

(** [if initial_identity is None: initial_identity = BoardIdentity()] *)
Definition default_identity (initial_identity : option BoardIdentity) : BoardIdentity :=
  match initial_identity with
  | None => {| manufacturer := EmptyString; board_type := EmptyString;
               asset_tag := EmptyString; software_version := EmptyString |}
  | Some given => given
  end.

(** The four fields of an identity, in declaration order. *)
Definition fields_of (ident : BoardIdentity) : list string :=
  [manufacturer ident; board_type ident; asset_tag ident; software_version ident].

(** [__init__(self, serial_port, initial_identity=None)]; the result is the
    constructed object. *)
Definition __init__ (serial_port : string)
    (initial_identity : option BoardIdentity) : M AccelerometerBoard :=
  let initial_identity := default_identity initial_identity in
  let* serial := SerialWrapper_new serial_port BAUDRATE initial_identity in
  let* resolved := identify serial in
  if decide (board_type resolved ≠ get_board_type)
  then raise (IncorrectBoardError (board_type resolved) get_board_type)
  else
    let self := {| _serial := serial; _identity := resolved |} in
    set_identity serial resolved ;;;
    atexit_register self ;;;
    ret self.

(** What a run of the constructor can be: the three ways it fails and the
    one way it succeeds, each with the state it leaves. *)
Inductive construction (serial_port : string) (initial : BoardIdentity) (s : State)
    : State → outcome AccelerometerBoard → Prop :=
  | open_failed s1 d :
      SerialWrapper_new serial_port BAUDRATE initial s = (s1, Raise (TransportError d)) →
      construction serial_port initial s s1 (Raise (TransportError d))
  | identify_failed s1 serial s2 e :
      SerialWrapper_new serial_port BAUDRATE initial s = (s1, Return serial) →
      identify serial s1 = (s2, Raise e) →
      (∀ rt et, e ≠ IncorrectBoardError rt et) →
      construction serial_port initial s s2 (Raise e)
  | rejected s1 serial s2 resolved :
      SerialWrapper_new serial_port BAUDRATE initial s = (s1, Return serial) →
      identify serial s1 = (s2, Return resolved) →
      board_type resolved ≠ "Accelerometer" →
      construction serial_port initial s s2
        (Raise (IncorrectBoardError (board_type resolved) "Accelerometer"))
  | verified s1 serial s2 resolved :
      SerialWrapper_new serial_port BAUDRATE initial s = (s1, Return serial) →
      identify serial s1 = (s2, Return resolved) →
      board_type resolved = "Accelerometer" →
      ref serial = length (identities s) →
      identities s2 = (identities s ++ [initial])%list →
      records s2 = records s →
      exit_hooks s2 = exit_hooks s →
      let self := {| _serial := serial; _identity := resolved |} in
      construction serial_port initial s
        {| world := world s2;
           identities := <[ref serial := resolved]> (identities s2);
           records := records s2;
           exit_hooks := exit_hooks s2 ++ [self] |}
        (Return self).

(** [_get_valid_board(cls, serial_port, initial_identity=None)] *)
Definition _get_valid_board (serial_port : string)
    (initial_identity : option BoardIdentity) : M (option AccelerometerBoard) :=
  try_except
    (let* board := __init__ serial_port initial_identity in
     ret (Some board))
    (λ err,
       match err with
       | IncorrectBoardError returned_type expected_type =>
           logger_warning (wrong_type_warning returned_type expected_type) ;;;
           ret None
       | _ =>
           match initial_identity with
           | Some given =>
               (if decide (board_type given = "manual") then
                  logger_warning (manual_warning serial_port)
                else if decide (manufacturer given = "sbot_simulator") then
                  logger_warning (simulator_warning serial_port)
                else ret tt) ;;;
               ret None
           | None =>
               logger_warning (generic_warning serial_port) ;;;
               ret None
           end
       end).

(** The failure is one the validator reports nothing about: it is not an
    [IncorrectBoardError], and an identity was passed whose board type is
    not [manual] and whose manufacturer is not [sbot_simulator]. *)
Definition unreported (e : exn) (initial_identity : option BoardIdentity) : Prop :=
  (∀ rt et, e ≠ IncorrectBoardError rt et)
  ∧ ∃ given, initial_identity = Some given
             ∧ board_type given ≠ "manual"
             ∧ manufacturer given ≠ "sbot_simulator".

(** The state in which the validator leaves a failed construction. *)
Definition after_failure (serial_port : string)
    (initial_identity : option BoardIdentity) (e : exn) (s1 : State) : State :=
  match e with
  | IncorrectBoardError rt et => with_warning s1 (wrong_type_warning rt et)
  | _ =>
      match initial_identity with
      | None => with_warning s1 (generic_warning serial_port)
      | Some given =>
          if decide (board_type given = "manual")
          then with_warning s1 (manual_warning serial_port)
          else if decide (manufacturer given = "sbot_simulator")
          then with_warning s1 (simulator_warning serial_port)
          else s1
      end
  end.

(** The identity [_get_simulator_boards] makes up for a registry entry
    before the board is contacted. *)
Definition synthetic_identity (board_info : BoardInfo) : BoardIdentity :=
  {| manufacturer := "sbot_simulator";
     board_type := type_str board_info;
     asset_tag := serial_number board_info;
     software_version := EmptyString |}.

(** The body of the [for] loop of [_get_simulator_boards], over the
    candidates still to visit, with the local dictionary [boards]. *)
Fixpoint sweep (candidates : list BoardInfo)
    (boards : gmap string AccelerometerBoard) : M (gmap string AccelerometerBoard) :=
  match candidates with
  | [] => ret boards
  | board_info :: rest =>
      let initial_identity := synthetic_identity board_info in
      let* found := _get_valid_board (url board_info) (Some initial_identity) in
      match found with
      | None => sweep rest boards
      | Some board => sweep rest (<[asset_tag (_identity board) := board]> boards)
      end
  end.

(** [_get_simulator_boards(cls)] *)
Definition _get_simulator_boards : M (gmap string AccelerometerBoard) :=
  λ s, sweep (get_simulator_boards C "AccelerometerBoard" (world s)) ∅ s.

(** [_get_supported_boards(cls, manual_boards=None)] *)
Definition _get_supported_boards (manual_boards : option (list string))
    : M (gmap string AccelerometerBoard) :=
  if IN_SIMULATOR C then _get_simulator_boards
  else _get_simulator_boards.

End Program.

Arguments State : clear implicits.
Arguments M : clear implicits.

(** ** A test bench: fake transport, fake registry, decimal literals

    A concrete instance of [Collaborators], in the manner of the fake
    transport and registry a unit test would install.  It is used to run the
    methods on explicit inputs. *)

Module Bench.

(** What is plugged in: for every port that can be opened, the reply to
    each command it answers, and the simulator's registry. *)
Record bench : Type := {
  devices : list (string * list (string * string));
  registry : list (string * BoardInfo);
}.

Fixpoint assoc {A} (key : string) (table : list (string * A)) : option A :=
  match table with
  | [] => None
  | (k, v) :: rest => if decide (k = key) then Some v else assoc key rest
  end.

Definition fake_open (serial_port : string) (baudrate : Z)
    (initial : BoardIdentity) (w : bench) : bench * io_result unit :=
  match assoc serial_port (devices w) with
  | Some _ => (w, Reply tt)
  | None => (w, Failure "could not open port")
  end.

Definition fake_query (serial_port : string) (baudrate : Z)
    (command : string) (w : bench) : bench * io_result string :=
  match assoc serial_port (devices w) with
  | None => (w, Failure "board disconnected")
  | Some replies =>
      match assoc command replies with
      | Some line => (w, Reply line)
      | None => (w, Failure "timed out")
      end
  end.

Definition fake_registry (family : string) (w : bench) : list BoardInfo :=
  (filter (λ entry, entry.1 = family) (registry w)).*2.

(** A decimal literal kept exactly: sign, all digits read as one number,
    and how many of them followed the point. *)
Record decimal : Type := { negative : bool; digits : N; places : nat }.

Definition digit_of (c : ascii) : option N :=
  let n := N_of_ascii c in
  if ((48 <=? n) && (n <=? 57))%N then Some (n - 48)%N else None.

Fixpoint scan (s : string) (after_point any : bool) (acc : N) (count : nat)
    : option (N * nat) :=
  match s with
  | EmptyString => if any then Some (acc, count) else None
  | String c rest =>
      match digit_of c with
      | Some d =>
          scan rest after_point true (10 * acc + d)%N
               (if after_point then S count else count)
      | None =>
          if decide (c = "."%char) then
            if after_point then None else scan rest true any acc count
          else None
      end
  end.

(** The literals [[+-]digits[.digits]] of Python's [float], the ones the
    wire protocol calls decimal numbers. *)
Definition decimal_of_string (s : string) : option decimal :=
  let unsigned (neg : bool) (body : string) :=
    match scan body false false 0%N 0 with
    | Some (d, p) => Some {| negative := neg; digits := d; places := p |}
    | None => None
    end in
  match s with
  | String c rest =>
      if decide (c = "-"%char) then unsigned true rest
      else if decide (c = "+"%char) then unsigned false rest
      else unsigned false s
  | EmptyString => None
  end.

(** [repr] of a string free of quotes and escapes. *)
Definition quote (s : string) : string := "'" ++ s ++ "'".

Definition collaborators (in_simulator : bool) : Collaborators := {|
  World := bench;
  serial_open := fake_open;
  serial_query := fake_query;
  get_simulator_boards := fake_registry;
  IN_SIMULATOR := in_simulator;
  pyfloat := decimal;
  float := decimal_of_string;
  repr := quote;
|}.

(** A fresh process on a given bench. *)
Definition start (in_simulator : bool) (w : bench) : State (collaborators in_simulator) :=
  @Build_State (collaborators in_simulator) w [] [] [].

(** One simulated accelerometer, registered under the serial number
    [SIM0] and reporting the asset tag [SN1]; one board of another kind;
    and a registered board that answers nothing. *)
Definition lab : bench := {|
  devices :=
    [ ("sim://acc0", [ ("*IDN?", "Acme:Accelerometer:SN1:1.0");
                       ("ACC:READ?", "1.0:-2.5:9.81");
                       ("*RESET", "ACK") ]);
      ("sim://servo0", [ ("*IDN?", "Acme:Servo:SN2:4.3") ]);
      ("sim://short", [ ("*IDN?", "Acme:Accelerometer");
                        ("ACC:READ?", "1.0:2.0") ]);
      ("sim://long", [ ("*IDN?", "Acme:Accelerometer:SN5:1.0:extra") ]);
      ("sim://text", [ ("*IDN?", "Acme:Accelerometer:SN6:1.0");
                       ("ACC:READ?", "a:b:c") ]) ];
  registry :=
    [ ("AccelerometerBoard",
       {| url := "sim://acc0"; type_str := "Accelerometer"; serial_number := "SIM0" |});
      ("ServoBoard",
       {| url := "sim://servo0"; type_str := "Servo"; serial_number := "SIM1" |});
      ("AccelerometerBoard",
       {| url := "sim://servo0"; type_str := "Accelerometer"; serial_number := "SIM2" |});
      ("AccelerometerBoard",
       {| url := "sim://gone"; type_str := "Accelerometer"; serial_number := "SIM3" |}) ];
|}.

(** The process the examples start from. *)
Definition boot : State (collaborators true) := start true lab.

Definition wrapper (serial_port : string) : SerialWrapper :=
  {| ref := 0; port := serial_port; baud := BAUDRATE |}.

(** A board object bound to [serial_port], as the constructor would have
    left it after reading [resolved]. *)
Definition board_at (serial_port : string) (resolved : BoardIdentity) : AccelerometerBoard :=
  {| _serial := wrapper serial_port; _identity := resolved |}.

Definition acme (tag : string) : BoardIdentity :=
  {| manufacturer := "Acme"; board_type := "Accelerometer";
     asset_tag := tag; software_version := "1.0" |}.

(** An identity as USB enumeration would supply it: neither manual nor
    from the simulator. *)
Definition usb_identity : BoardIdentity :=
  {| manufacturer := "Student Robotics"; board_type := "ACCv1";
     asset_tag := "sr0XYZ"; software_version := EmptyString |}.

(** Two simulated boards that report the same asset tag, and a candidate
    that cannot be opened. *)
Definition twins : bench := {|
  devices :=
    [ ("sim://a", [ ("*IDN?", "Acme:Accelerometer:SN1:1.0");
                    ("ACC:READ?", "1.0:x:3.0") ]);
      ("sim://b", [ ("*IDN?", "Beta:Accelerometer:SN1:2.0") ]) ];
  registry :=
    [ ("AccelerometerBoard",
       {| url := "sim://a"; type_str := "Accelerometer"; serial_number := "SIM0" |});
      ("AccelerometerBoard",
       {| url := "sim://gone"; type_str := "manual"; serial_number := "SIM1" |});
      ("AccelerometerBoard",
       {| url := "sim://b"; type_str := "Accelerometer"; serial_number := "SIM2" |}) ];
|}.

Definition twins_boot : State (collaborators true) := start true twins.

Definition twin_a : AccelerometerBoard := board_at "sim://a" (acme "SN1").

Definition twin_b : AccelerometerBoard :=
  {| _serial := {| ref := 1; port := "sim://b"; baud := BAUDRATE |};
     _identity := {| manufacturer := "Beta"; board_type := "Accelerometer";
                     asset_tag := "SN1"; software_version := "2.0" |} |}.

(** The mapping a sweep of [twins] returns. *)
Definition twins_mapping : gmap string AccelerometerBoard := {[ "SN1" := twin_b ]}.

(** An identity that is both manual and from the simulator. *)
Definition manual_simulator_identity : BoardIdentity :=
  {| manufacturer := "sbot_simulator"; board_type := "manual";
     asset_tag := "SIM1"; software_version := EmptyString |}.


End Bench.

(** * Properties *)

(** ** [split] and [join] *)

Lemma split_field_then_sep sep field rest :
  sep_free sep field →
  split sep (field ++ String sep rest) = field :: split sep rest.
Proof.
  induction field as [|c field IH]; simpl.
  - intros _. destruct (decide (sep = sep)); congruence.
  - intros [Hc Hfree]. destruct (decide (c = sep)); [contradiction|].
    now rewrite (IH Hfree).
Qed.

Lemma split_last_field sep field :
  sep_free sep field → split sep field = [field].
Proof.
  induction field as [|c field IH]; simpl; [reflexivity|].
  intros [Hc Hfree]. destruct (decide (c = sep)); [contradiction|].
  now rewrite (IH Hfree).
Qed.

Lemma split_join sep fields :
  fields ≠ [] → Forall (sep_free sep) fields →
  split sep (join sep fields) = fields.
Proof.
  induction fields as [|f fs IH]; [congruence|].
  intros _ Hall. inversion Hall as [|? ? Hf Hfs]; subst.
  destruct fs as [|g fs].
  - simpl. now apply split_last_field.
  - change (join sep (f :: g :: fs)) with (f ++ String sep (join sep (g :: fs))).
    rewrite split_field_then_sep by assumption.
    f_equal. now apply IH.
Qed.

Lemma split_nonempty sep s : split sep s ≠ [].
Proof.
  destruct s as [|c s]; simpl; [congruence|].
  destruct (decide (c = sep)); [congruence|].
  destruct (split sep s); congruence.
Qed.

Section Properties.

Context {C : Collaborators}.
Implicit Types (s : State C) (serial : SerialWrapper) (self : AccelerometerBoard).

(** ** The primitives, one equation each *)

Lemma query_reply serial command s w line :
  serial_query C (port serial) (baud serial) command (world s) = (w, Reply line) →
  query serial command s = (with_world s w, Return line).
Proof. intros H. unfold query. now rewrite H. Qed.

Lemma query_failure serial command s w d :
  serial_query C (port serial) (baud serial) command (world s) = (w, Failure d) →
  query serial command s = (with_world s w, Raise (TransportError d)).
Proof. intros H. unfold query. now rewrite H. Qed.

Lemma BoardIdentity_of_short fields :
  (length fields ≤ 4)%nat →
  ∃ ident, BoardIdentity_of fields = inr ident
           ∧ fields_of ident = (fields ++ replicate (4 - length fields) EmptyString)%list.
Proof.
  intros Hlen.
  destruct fields as [|m [|b [|a [|v [|x rest]]]]]; simpl in *;
    try (eexists; split; reflexivity).
  lia.
Qed.

Lemma BoardIdentity_of_long fields :
  (4 < length fields)%nat → BoardIdentity_of fields = inl TypeError.
Proof.
  intros Hlen.
  destruct fields as [|m [|b [|a [|v [|x rest]]]]]; simpl in *; try lia.
  reflexivity.
Qed.

Lemma BoardIdentity_of_not_incorrect fields rt et :
  BoardIdentity_of fields ≠ inl (IncorrectBoardError rt et).
Proof.
  destruct fields as [|m [|b [|a [|v [|x rest]]]]]; simpl; congruence.
Qed.

(** [identify] is one exchange with the transport followed by the parse of
    the reply; it touches nothing but the outside world. *)
Lemma identify_cases serial s :
  ∃ w,
    (∃ line ident,
        serial_query C (port serial) (baud serial) "*IDN?" (world s) = (w, Reply line)
        ∧ BoardIdentity_of (split ":" line) = inr ident
        ∧ identify serial s = (with_world s w, Return ident))
    ∨ (∃ e, (∀ rt et, e ≠ IncorrectBoardError rt et)
            ∧ identify serial s = (with_world s w, Raise e)).
Proof.
  unfold identify, bind.
  destruct (serial_query C (port serial) (baud serial) "*IDN?" (world s))
    as [w [line|d]] eqn:E; exists w.
  - rewrite (query_reply _ _ _ _ _ E).
    destruct (BoardIdentity_of (split ":" line)) as [e|ident] eqn:P.
    + right. exists e. split; [|reflexivity].
      intros rt et ->. now apply BoardIdentity_of_not_incorrect in P.
    + left. exists line, ident. repeat split; assumption || reflexivity.
  - rewrite (query_failure _ _ _ _ _ E).
    right. eexists. split; [|reflexivity]. congruence.
Qed.

(** ** Identification *)

(** C5 (as amended). [identify] sends the literal command [*IDN?] and does
    nothing else to the state.  When the reply is four separator-free
    fields joined by colons, the identity holds exactly those fields in
    order.  More generally a reply of at most four fields is accepted, the
    fields filling the identity from the left and the missing ones being the
    empty string; a reply of more than four fields raises [TypeError]. *)
Theorem identify_reply_fields serial s w line :
  serial_query C (port serial) (baud serial) "*IDN?" (world s) = (w, Reply line) →
  (∀ m b a v,
      Forall (sep_free ":") [m; b; a; v] → line = join ":" [m; b; a; v] →
      identify serial s =
        (with_world s w,
         Return {| manufacturer := m; board_type := b;
                   asset_tag := a; software_version := v |}))
  ∧ ((length (split ":" line) ≤ 4)%nat →
     ∃ ident,
       identify serial s = (with_world s w, Return ident)
       ∧ fields_of ident
         = (split ":" line ++ replicate (4 - length (split ":" line)) EmptyString)%list)
  ∧ ((4 < length (split ":" line))%nat →
     identify serial s = (with_world s w, Raise TypeError)).
Proof.
  intros Hq. unfold identify, bind. rewrite (query_reply _ _ _ _ _ Hq).
  split; [|split].
  - intros m b a v Hfree ->. now rewrite split_join.
  - intros Hlen. destruct (BoardIdentity_of_short _ Hlen) as (ident & -> & Hf).
    exists ident. split; [reflexivity|assumption].
  - intros Hlen. now rewrite BoardIdentity_of_long.
Qed.

(** ** Construction *)

Lemma SerialWrapper_new_cases serial_port baudrate initial s :
  ∃ w,
    (∃ d, SerialWrapper_new serial_port baudrate initial s
          = (with_world s w, Raise (TransportError d)))
    ∨ SerialWrapper_new serial_port baudrate initial s
      = ({| world := w; identities := identities s ++ [initial];
            records := records s; exit_hooks := exit_hooks s |},
         Return {| ref := length (identities s);
                   port := serial_port; baud := baudrate |}).
Proof.
  unfold SerialWrapper_new.
  destruct (serial_open C serial_port baudrate initial (world s)) as [w [[]|d]];
    exists w; [right|left; exists d]; reflexivity.
Qed.

Lemma __init___construction serial_port initial_identity s :
  construction serial_port (default_identity initial_identity) s
    (__init__ serial_port initial_identity s).1
    (__init__ serial_port initial_identity s).2.
Proof.
  unfold __init__, bind.
  set (initial := default_identity initial_identity).
  destruct (SerialWrapper_new_cases serial_port BAUDRATE initial s)
    as (w & [(d & Hnew) | Hnew]); rewrite Hnew.
  - now apply open_failed.
  - set (s1 := Build_State _ _ _ _) in *. set (serial := Build_SerialWrapper _ _ _) in *.
    destruct (identify_cases serial s1) as (w' & [(line & ident & _ & _ & Hid) | (e & He & Hid)]);
      rewrite Hid.
    + destruct (decide (board_type ident ≠ get_board_type)) as [Hne|Heq].
      * now apply (rejected _ _ _ s1 serial).
      * apply dec_stable in Heq.
        now apply (verified _ _ _ s1 serial (with_world s1 w') ident).
    + now apply (identify_failed _ _ _ s1 serial).
Qed.

(** C3. The constructor raises [IncorrectBoardError returned expected]
    exactly when the transport opened, identification returned an identity,
    and the board type of that identity is not the literal [Accelerometer];
    the error then carries that board type and the literal.  When the
    constructor returns, the object holds the identity that identification
    returned, the transport caches that same identity, and the object was
    added to the exit hooks. *)
Theorem init_rejects_iff_wrong_type serial_port initial_identity s :
  (∀ s' rt et,
      __init__ serial_port initial_identity s
        = (s', Raise (IncorrectBoardError rt et))
      ↔ ∃ s1 serial resolved,
          SerialWrapper_new serial_port BAUDRATE
            (default_identity initial_identity) s = (s1, Return serial)
          ∧ identify serial s1 = (s', Return resolved)
          ∧ board_type resolved ≠ "Accelerometer"
          ∧ rt = board_type resolved ∧ et = "Accelerometer")
  ∧ (∀ s' self,
      __init__ serial_port initial_identity s = (s', Return self) →
      ∃ s1 s2,
        SerialWrapper_new serial_port BAUDRATE
          (default_identity initial_identity) s = (s1, Return (_serial self))
        ∧ identify (_serial self) s1 = (s2, Return (_identity self))
        ∧ board_type (_identity self) = "Accelerometer"
        ∧ get_identity (_serial self) s' = Some (_identity self)
        ∧ exit_hooks s' = (exit_hooks s ++ [self])%list
        ∧ world s' = world s2 ∧ records s' = records s).
Proof.
  pose proof (__init___construction serial_port initial_identity s) as Hrun.
  split.
  - intros s' rt et. split.
    + intros Heq. rewrite Heq in Hrun. simpl in Hrun.
      inversion Hrun as [| ? ? ? e ? ? Hne | s1 serial s2 resolved Hnew Hid Hty |]; subst.
      * exfalso. now apply (Hne rt et).
      * exists s1, serial, resolved. repeat split; assumption.
    + intros (s1 & serial & resolved & Hnew & Hid & Hty & -> & ->).
      unfold __init__, bind.
      rewrite Hnew, Hid.
      destruct (decide (board_type resolved ≠ get_board_type)); [reflexivity|].
      contradiction.
  - intros s' self Heq. rewrite Heq in Hrun. simpl in Hrun.
    inversion Hrun as [| | | s1 serial s2 resolved Hnew Hid Hty Href Hids Hrec Hhooks]; subst.
    exists s1, s2. simpl. repeat split; try assumption.
    + unfold get_identity. simpl. apply list_lookup_insert_eq.
      rewrite Hids, Href, length_app. simpl. lia.
    + now rewrite Hhooks.
Qed.

(** ** The candidate validator *)

Lemma validator_on_success serial_port initial_identity s s1 board :
  __init__ serial_port initial_identity s = (s1, Return board) →
  _get_valid_board serial_port initial_identity s = (s1, Return (Some board)).
Proof. intros H. unfold _get_valid_board, try_except, bind. now rewrite H. Qed.

Lemma validator_on_failure serial_port initial_identity s s1 e :
  __init__ serial_port initial_identity s = (s1, Raise e) →
  _get_valid_board serial_port initial_identity s
    = (after_failure serial_port initial_identity e s1, Return None).
Proof.
  intros H. unfold _get_valid_board, try_except, bind. rewrite H.
  unfold after_failure.
  destruct e; try reflexivity;
    destruct initial_identity as [given|]; try reflexivity;
    destruct (decide (board_type given = "manual")); try reflexivity;
    destruct (decide (manufacturer given = "sbot_simulator")); reflexivity.
Qed.

Lemma validator_total serial_port initial_identity s :
  ∃ s' found, _get_valid_board serial_port initial_identity s = (s', Return found).
Proof.
  destruct (__init__ serial_port initial_identity s) as [s1 [board|e]] eqn:E.
  - eexists _, _. exact (validator_on_success _ _ _ _ _ E).
  - eexists _, _. exact (validator_on_failure _ _ _ _ _ E).
Qed.

Lemma validator_found serial_port initial_identity s s' board :
  _get_valid_board serial_port initial_identity s = (s', Return (Some board)) →
  __init__ serial_port initial_identity s = (s', Return board).
Proof.
  intros H.
  destruct (__init__ serial_port initial_identity s) as [s1 [b|e]] eqn:E.
  - rewrite (validator_on_success _ _ _ _ _ E) in H. congruence.
  - rewrite (validator_on_failure _ _ _ _ _ E) in H. congruence.
Qed.

Lemma after_failure_reported serial_port initial_identity e s1 :
  ¬ unreported e initial_identity →
  ∃ msg, after_failure serial_port initial_identity e s1 = with_warning s1 msg.
Proof.
  intros Hrep. unfold after_failure.
  destruct e as [rt et| |field|d]; [eexists; reflexivity|..];
    (destruct initial_identity as [given|]; [|eexists; reflexivity];
     destruct (decide (board_type given = "manual")); [eexists; reflexivity|];
     destruct (decide (manufacturer given = "sbot_simulator")); [eexists; reflexivity|];
     exfalso; apply Hrep; split; [congruence | exists given; auto]).
Qed.

Lemma after_failure_unreported serial_port initial_identity e s1 :
  unreported e initial_identity →
  after_failure serial_port initial_identity e s1 = s1.
Proof.
  intros [Hne (given & -> & Hman & Hsim)]. unfold after_failure.
  destruct e as [rt et| |field|d]; [now destruct (Hne rt et)|..];
    destruct (decide (board_type given = "manual")); try contradiction;
    destruct (decide (manufacturer given = "sbot_simulator")); try contradiction;
    reflexivity.
Qed.

(** C1 (as amended). The validator never raises.  When the constructor
    returns a board, the validator returns that board and adds nothing.
    When the constructor raises, the validator returns [None]; it logs one
    warning, except that it logs nothing when the failure is not an
    [IncorrectBoardError] and an identity was passed that is neither
    manual nor from the simulator. *)
Theorem validator_never_raises serial_port initial_identity s :
  ∃ s' found,
    _get_valid_board serial_port initial_identity s = (s', Return found)
    ∧ match __init__ serial_port initial_identity s with
      | (s1, Return board) => found = Some board ∧ s' = s1
      | (s1, Raise e) =>
          found = None
          ∧ (¬ unreported e initial_identity → ∃ msg, s' = with_warning s1 msg)
          ∧ (unreported e initial_identity → s' = s1)
      end.
Proof.
  destruct (__init__ serial_port initial_identity s) as [s1 [board|e]] eqn:E.
  - exists s1, (Some board). split; [now apply validator_on_success|auto].
  - exists (after_failure serial_port initial_identity e s1), None.
    split; [now apply validator_on_failure|].
    split; [reflexivity|]. split.
    + apply after_failure_reported.
    + apply after_failure_unreported.
Qed.

(** C7 (as amended). After a failure that is not an
    [IncorrectBoardError] the validator returns [None]; with no identity
    passed it logs the generic warning about a board-like port, and with an
    identity passed that is neither manual nor from the simulator it logs
    nothing at all. *)
Theorem validator_fallback_warning serial_port initial_identity s s1 e :
  __init__ serial_port initial_identity s = (s1, Raise e) →
  (∀ rt et, e ≠ IncorrectBoardError rt et) →
  (initial_identity = None →
   _get_valid_board serial_port initial_identity s
     = (with_warning s1 (generic_warning (C:=C) serial_port), Return None))
  ∧ (∀ given,
       initial_identity = Some given →
       board_type given ≠ "manual" →
       manufacturer given ≠ "sbot_simulator" →
       _get_valid_board serial_port initial_identity s = (s1, Return None)).
Proof.
  intros Hrun Hne. rewrite (validator_on_failure _ _ _ _ _ Hrun). split.
  - intros ->. unfold after_failure.
    destruct e as [rt et| | |]; [now destruct (Hne rt et)|..]; reflexivity.
  - intros given -> Hman Hsim.
    rewrite after_failure_unreported; [reflexivity|].
    split; [assumption|]. exists given. auto.
Qed.

(** ** The discovery sweep *)

Lemma SerialWrapper_new_returns serial_port baudrate initial s s1 serial :
  SerialWrapper_new serial_port baudrate initial s = (s1, Return serial) →
  port serial = serial_port ∧ baud serial = baudrate.
Proof.
  unfold SerialWrapper_new.
  destruct (serial_open C serial_port baudrate initial (world s)) as [w [[]|d]];
    intros H; inversion H; subst; auto.
Qed.

(** A board the constructor returned was identified over its own port as
    an accelerometer, and holds the parse of the device's reply. *)
Lemma constructed_board serial_port initial_identity s s' self :
  __init__ serial_port initial_identity s = (s', Return self) →
  port (_serial self) = serial_port
  ∧ board_type (_identity self) = "Accelerometer"
  ∧ ∃ s1 w line,
      serial_query C serial_port BAUDRATE "*IDN?" (world s1) = (w, Reply line)
      ∧ BoardIdentity_of (split ":" line) = inr (_identity self).
Proof.
  intros Heq.
  pose proof (__init___construction serial_port initial_identity s) as Hrun.
  rewrite Heq in Hrun. simpl in Hrun.
  inversion Hrun as [| | | s1 serial s2 resolved Hnew Hid Hty _ _ _ _]; subst.
  simpl. destruct (SerialWrapper_new_returns _ _ _ _ _ _ Hnew) as [Hport Hbaud].
  repeat split; try assumption.
  destruct (identify_cases serial s1)
    as (w & [(line & ident & Hq & Hparse & Hid') | (e & _ & Hid')]);
    rewrite Hid' in Hid; [|discriminate].
  rewrite Hport, Hbaud in Hq. exists s1, w, line.
  split; [assumption|]. congruence.
Qed.

(** The loop keeps any property of the entries that every validated board
    has under its own asset tag, and it always runs to the end. *)
Lemma sweep_invariant (P : string → AccelerometerBoard → Prop) candidates :
  ∀ (boards : gmap string AccelerometerBoard) s,
    (∀ key board, boards !! key = Some board → P key board) →
    (∀ board_info s1 s2 board,
        board_info ∈ candidates →
        _get_valid_board (url board_info) (Some (synthetic_identity board_info)) s1
          = (s2, Return (Some board)) →
        P (asset_tag (_identity board)) board) →
    ∃ s' result,
      sweep candidates boards s = (s', Return result)
      ∧ ∀ key board, result !! key = Some board → P key board.
Proof.
  induction candidates as [|board_info rest IH]; intros boards s Hboards Hstep.
  - exists s, boards. split; [reflexivity|assumption].
  - simpl. unfold bind.
    destruct (validator_total (url board_info)
                (Some (synthetic_identity board_info)) s) as (s1 & found & Hv).
    rewrite Hv.
    assert (∀ info s2 s3 b, info ∈ rest →
              _get_valid_board (url info) (Some (synthetic_identity info)) s2
                = (s3, Return (Some b)) →
              P (asset_tag (_identity b)) b) as Hrest.
    { intros info s2 s3 b Hin. apply Hstep. now apply list_elem_of_further. }
    destruct found as [board|].
    + apply IH; [|assumption].
      intros key b Hlook. apply lookup_insert_Some in Hlook.
      destruct Hlook as [[<- <-] | [_ Hold]].
      * eapply Hstep; [apply list_elem_of_here | exact Hv].
      * now apply Hboards.
    + now apply IH.
Qed.

(** C2. The sweep always returns a mapping.  Every entry of it is filed
    under the asset tag of the identity its board holds; that identity has
    board type [Accelerometer] and is the parse of what the device at the
    candidate's address replied to [*IDN?], not the identity made up from
    the registry; and the board is one that the validator returned for a
    candidate of the registry, so a candidate on which the validator
    returned [None] has no entry. *)
Theorem sweep_keys_are_resolved_tags s :
  ∃ s' boards,
    _get_simulator_boards s = (s', Return boards)
    ∧ ∀ key board,
        boards !! key = Some board →
        key = asset_tag (_identity board)
        ∧ board_type (_identity board) = "Accelerometer"
        ∧ ∃ board_info s1 s2,
            board_info ∈ get_simulator_boards C "AccelerometerBoard" (world s)
            ∧ _get_valid_board (url board_info)
                (Some (synthetic_identity board_info)) s1
              = (s2, Return (Some board))
            ∧ port (_serial board) = url board_info
            ∧ ∃ s3 w line,
                serial_query C (url board_info) BAUDRATE "*IDN?" (world s3)
                  = (w, Reply line)
                ∧ BoardIdentity_of (split ":" line) = inr (_identity board).
Proof.
  unfold _get_simulator_boards.
  apply sweep_invariant.
  - intros key board Hlook. now rewrite lookup_empty in Hlook.
  - intros board_info s1 s2 board Hin Hv.
    destruct (constructed_board _ _ _ _ _ (validator_found _ _ _ _ _ Hv))
      as (Hport & Hty & s3 & w & line & Hq & Hparse).
    split; [reflexivity|]. split; [assumption|].
    exists board_info, s1, s2. repeat split; try assumption.
    exists s3, w, line. auto.
Qed.

(** C8. Whatever the flag [IN_SIMULATOR] is, [_get_supported_boards] is
    the sweep over the simulator's registry: same state, same result. *)
Theorem supported_boards_is_simulator_sweep manual_boards s :
  _get_supported_boards manual_boards s = _get_simulator_boards s.
Proof.
  unfold _get_supported_boards. now destruct (IN_SIMULATOR C).
Qed.

(** C9. [_get_supported_boards] does not look at [manual_boards]: run from
    the same state, any two values of it give the same state and mapping. *)
Theorem supported_boards_ignores_manual_boards manual_boards manual_boards' s :
  _get_supported_boards manual_boards s = _get_supported_boards manual_boards' s.
Proof. reflexivity. Qed.

(** ** Commands *)

(** C6. [_cleanup] never raises.  When [reset] returns, nothing is logged;
    when [reset] raises, whatever the exception, it is dropped and one
    warning naming the board's asset tag is logged. *)
Theorem cleanup_never_raises self s :
  ∃ s',
    _cleanup self s = (s', Return tt)
    ∧ match reset self s with
      | (s1, Return _) => s' = s1
      | (s1, Raise _) => s' = with_warning s1 (cleanup_warning self)
      end.
Proof.
  unfold _cleanup, try_except, bind.
  destruct (reset self s) as [s1 [line|e]]; eexists; split; reflexivity.
Qed.

Lemma floats_all_parse fields :
  Forall (λ x, is_Some (float C x)) fields →
  ∃ values, floats fields = inr values
            ∧ Forall2 (λ x v, float C x = Some v) fields values.
Proof.
  induction 1 as [|x rest [v Hv] _ (values & Hvalues & Hall)].
  - exists []. split; [reflexivity|constructor].
  - exists (v :: values). simpl. rewrite Hv, Hvalues.
    split; [reflexivity|]. now constructor.
Qed.

(** C10. When every colon-separated field of the reply to [ACC:READ?] is
    accepted by [float], [acceleration] returns a list (not a tuple) with
    the float of each field, in the order of the reply and as many as the
    reply has fields, however many that is. *)
Theorem acceleration_one_float_per_field self s w line :
  serial_query C (port (_serial self)) (baud (_serial self)) "ACC:READ?" (world s)
    = (w, Reply line) →
  Forall (λ x, is_Some (float C x)) (split ":" line) →
  ∃ values,
    acceleration self s = (with_world s w, Return (PyList values))
    ∧ Forall2 (λ x v, float C x = Some v) (split ":" line) values
    ∧ length values = length (split ":" line).
Proof.
  intros Hq Hall. unfold acceleration, bind.
  rewrite (query_reply _ _ _ _ _ Hq).
  destruct (floats_all_parse _ Hall) as (values & -> & Hvalues).
  exists values. split; [reflexivity|]. split; [assumption|].
  symmetry. eapply Forall2_length, Hvalues.
Qed.

(** C4, where the code departs from it. The claim wants a reply of two
    fields refused with a parse error and a reply of three fields returned
    as a tuple.  The body has no test on the number of fields and builds a
    list: on the reply [1.0:2.0] it returns the list of the two floats. *)
Theorem acceleration_accepts_two_fields self s w x y :
  serial_query C (port (_serial self)) (baud (_serial self)) "ACC:READ?" (world s)
    = (w, Reply "1.0:2.0") →
  float C "1.0" = Some x →
  float C "2.0" = Some y →
  acceleration self s = (with_world s w, Return (PyList [x; y])).
Proof.
  intros Hq Hx Hy. unfold acceleration, bind.
  rewrite (query_reply _ _ _ _ _ Hq).
  change (split ":" "1.0:2.0") with ["1.0"; "2.0"].
  simpl. now rewrite Hx, Hy.
Qed.

End Properties.

(** * The properties on the test bench *)

Section OnTheBench.

Import Bench.

(** C5, on the bench: the four fields of the reply of [sim://acc0]. *)
Lemma identify_reply_fields_witness :
  identify (wrapper "sim://acc0") boot
  = (with_world boot lab,
     Return {| manufacturer := "Acme"; board_type := "Accelerometer";
               asset_tag := "SN1"; software_version := "1.0" |}).
Proof.
  refine (proj1 (identify_reply_fields (C := collaborators true)
                   (wrapper "sim://acc0") boot lab
                   "Acme:Accelerometer:SN1:1.0" eq_refl)
            "Acme" "Accelerometer" "SN1" "1.0" _ eq_refl).
  repeat constructor; discriminate.
Defined.

(** C5 as stated does not hold: the reply of [sim://short] has two fields,
    not four, and identification succeeds on it. *)
Lemma identify_accepts_two_fields :
  serial_query (collaborators true) "sim://short" BAUDRATE "*IDN?" lab
    = (lab, Reply "Acme:Accelerometer")
  ∧ length (split ":" "Acme:Accelerometer") = 2%nat
  ∧ identify (wrapper "sim://short") boot
    = (with_world boot lab,
       Return {| manufacturer := "Acme"; board_type := "Accelerometer";
                 asset_tag := EmptyString; software_version := EmptyString |}).
Proof. repeat split. Qed.

(** C3, on the bench: [sim://servo0] is rejected with the type it
    reported, and [sim://acc0] yields a board whose transport caches the
    identity the board reported. *)
Lemma init_rejects_iff_wrong_type_witness :
  (∃ s1 serial resolved,
      SerialWrapper_new "sim://servo0" BAUDRATE (default_identity None) boot
        = (s1, Return serial)
      ∧ identify serial s1 = ((__init__ "sim://servo0" None boot).1, Return resolved)
      ∧ board_type resolved ≠ "Accelerometer"
      ∧ "Servo" = board_type resolved ∧ "Accelerometer" = "Accelerometer")
  ∧ get_identity (wrapper "sim://acc0") (__init__ "sim://acc0" None boot).1
    = Some (acme "SN1").
Proof.
  split.
  - apply (proj1 (init_rejects_iff_wrong_type "sim://servo0" None boot)).
    reflexivity.
  - destruct (proj2 (init_rejects_iff_wrong_type "sim://acc0" None boot)
                (__init__ "sim://acc0" None boot).1
                (board_at "sim://acc0" (acme "SN1")) eq_refl)
      as (s1 & s2 & _ & _ & _ & Hcached & _).
    exact Hcached.
Defined.

(** C1, on the bench: an unreachable port without an identity. *)
Lemma validator_never_raises_witness :
  ∃ s' found,
    _get_valid_board "sim://gone" None boot = (s', Return found)
    ∧ found = None
    ∧ ∃ msg, s' = with_warning boot msg.
Proof.
  destruct (validator_never_raises "sim://gone" None boot)
    as (s' & found & Hrun & Hnone & Hlogged & _).
  exists s', found. repeat split; try assumption.
  apply Hlogged. intros [_ (given & Habsurd & _)]. discriminate.
Defined.

(** C1 as stated does not hold: the port cannot be opened, the identity
    passed is neither manual nor from the simulator, and the validator
    returns [None] without logging anything. *)
Lemma validator_silent_on_usb_identity :
  __init__ "sim://gone" (Some usb_identity) boot
    = (boot, Raise (TransportError "could not open port"))
  ∧ _get_valid_board "sim://gone" (Some usb_identity) boot = (boot, Return None)
  ∧ records boot = [].
Proof. repeat split. Qed.

(** C7, on the bench: no identity passed, the generic warning is logged. *)
Lemma validator_fallback_warning_witness :
  _get_valid_board "sim://gone" None boot
  = (with_warning boot
       "Found accelerometer board-like serial port at 'sim://gone', but it could not be identified. Ignoring this device",
     Return None).
Proof.
  refine (proj1 (validator_fallback_warning "sim://gone" None boot boot
                   (TransportError "could not open port") eq_refl _) eq_refl).
  discriminate.
Defined.

(** C7 as stated does not hold: the reply of [sim://long] has five fields,
    so the constructor fails with [TypeError]; the identity passed matches
    neither rule, and no warning at all is logged. *)
Lemma validator_no_fallback_with_identity :
  (__init__ "sim://long" (Some usb_identity) boot).2 = Raise TypeError
  ∧ board_type usb_identity ≠ "manual"
  ∧ manufacturer usb_identity ≠ "sbot_simulator"
  ∧ (_get_valid_board "sim://long" (Some usb_identity) boot).2 = Return None
  ∧ records (_get_valid_board "sim://long" (Some usb_identity) boot).1 = [].
Proof. repeat split; discriminate. Qed.

(** C2, on the bench: of the three registered accelerometer candidates one
    answers as a servo board and one cannot be opened; the mapping has the
    remaining board, under the tag [SN1] it reported and not under the
    serial number [SIM0] of the registry. *)
Lemma sweep_keys_are_resolved_tags_witness :
  ∃ s' boards,
    _get_simulator_boards boot = (s', Return boards)
    ∧ boards !! "SN1" = Some (board_at "sim://acc0" (acme "SN1"))
    ∧ boards !! "SIM0" = None
    ∧ "SN1" = asset_tag (_identity (board_at "sim://acc0" (acme "SN1"))).
Proof.
  destruct (sweep_keys_are_resolved_tags boot) as (s' & boards & Hrun & Hkeys).
  exists s', boards.
  assert (boards = {[ "SN1" := board_at "sim://acc0" (acme "SN1") ]}) as Hboards.
  { vm_compute in Hrun. injection Hrun as _ <-. reflexivity. }
  split; [assumption|]. split; [|split].
  - rewrite Hboards. reflexivity.
  - rewrite Hboards. reflexivity.
  - apply (Hkeys "SN1"). rewrite Hboards. reflexivity.
Defined.

(** C6, on the bench: [sim://short] does not answer [*RESET]; the
    exception is dropped and the warning logged. *)
Lemma cleanup_never_raises_witness :
  reset (board_at "sim://short" (acme "SN9")) boot
    = (boot, Raise (TransportError "timed out"))
  ∧ ∃ s', _cleanup (board_at "sim://short" (acme "SN9")) boot = (s', Return tt)
          ∧ s' = with_warning boot "Failed to cleanup servo board SN9.".
Proof.
  split; [reflexivity|].
  exact (cleanup_never_raises (board_at "sim://short" (acme "SN9")) boot).
Defined.

(** C10, on the bench: a reply of two decimal fields gives a list of two. *)
Lemma acceleration_one_float_per_field_witness :
  ∃ values,
    acceleration (board_at "sim://short" (acme "SN9")) boot
      = (with_world boot lab, Return (PyList values))
    ∧ Forall2 (λ x v, decimal_of_string x = Some v) ["1.0"; "2.0"] values
    ∧ length values = 2%nat.
Proof.
  refine (acceleration_one_float_per_field (C := collaborators true)
            (board_at "sim://short" (acme "SN9")) boot lab "1.0:2.0" eq_refl _).
  repeat constructor; eexists; reflexivity.
Defined.

(** C4, on the bench: two fields are accepted. *)
Lemma acceleration_accepts_two_fields_witness :
  acceleration (board_at "sim://short" (acme "SN9")) boot
  = (with_world boot lab,
     Return (PyList [ {| negative := false; digits := 10; places := 1 |};
                      {| negative := false; digits := 20; places := 1 |} ])).
Proof.
  exact (acceleration_accepts_two_fields (C := collaborators true)
           (board_at "sim://short" (acme "SN9")) boot lab _ _
           eq_refl eq_refl eq_refl).
Defined.

(** The rest of the behaviour of [acceleration] on the bench: three fields
    come back as a list, and a field that is not a number raises
    [ValueError] at that field. *)
Example acceleration_on_the_bench :
  acceleration (board_at "sim://acc0" (acme "SN1")) boot
  = (with_world boot lab,
     Return (PyList [ {| negative := false; digits := 10; places := 1 |};
                      {| negative := true; digits := 25; places := 1 |};
                      {| negative := false; digits := 981; places := 2 |} ]))
  ∧ acceleration (board_at "sim://text" (acme "SN6")) boot
    = (with_world boot lab, Raise (ValueError "a")).
Proof. split; reflexivity. Qed.

(** C8 and C9, on the bench. *)
Example supported_boards_on_the_bench :
  _get_supported_boards (Some ["COM3"]) (start false lab)
  = _get_simulator_boards (start false lab)
  ∧ (_get_supported_boards None (start false lab)).2
    = (_get_supported_boards (Some ["COM3"]) (start true lab)).2.
Proof. split; reflexivity. Qed.

End OnTheBench.

(** * Further properties of the module *)

(** ** More on [split] and [join] *)

Lemma join_split sep s : join sep (split sep s) = s.
Proof.
  induction s as [|c rest IH]; simpl; [reflexivity|].
  pose proof (split_nonempty sep rest) as Hne.
  destruct (decide (c = sep)) as [->|Hc].
  - destruct (split sep rest) as [|f fs]; [contradiction|].
    change (join sep (EmptyString :: f :: fs)) with (String sep (join sep (f :: fs))).
    now rewrite IH.
  - destruct (split sep rest) as [|f fs]; [contradiction|].
    destruct fs as [|g fs].
    + simpl in *. now rewrite IH.
    + change (join sep (String c f :: g :: fs))
        with (String c (f ++ String sep (join sep (g :: fs)))).
      change (join sep (f :: g :: fs))
        with (f ++ String sep (join sep (g :: fs))) in IH.
      now rewrite IH.
Qed.

Lemma split_fields_sep_free sep s : Forall (sep_free sep) (split sep s).
Proof.
  induction s as [|c rest IH]; simpl.
  - repeat constructor.
  - destruct (decide (c = sep)) as [->|Hc].
    + constructor; [exact I|assumption].
    + destruct (split sep rest) as [|f fs]; [repeat constructor; assumption|].
      inversion IH; subst. constructor; [|assumption]. simpl. auto.
Qed.

Lemma BoardIdentity_of_fields (P : string → Prop) fields ident :
  BoardIdentity_of fields = inr ident →
  P EmptyString → Forall P fields → Forall P (fields_of ident).
Proof.
  intros Hparse Hempty Hall.
  destruct fields as [|m [|b [|a [|v [|x rest]]]]]; simpl in Hparse;
    inversion Hparse; subst; unfold fields_of; simpl;
    repeat match goal with
           | H : Forall _ (_ :: _) |- _ => inversion H; clear H; subst
           end;
    repeat constructor; assumption.
Qed.

Section Further.

Context {C : Collaborators}.
Implicit Types (s : State C) (serial : SerialWrapper) (self : AccelerometerBoard).

(** ** What the constructor touches *)

(** The constructor logs nothing and rewrites no cache but that of the
    transport it creates; it adds an exit hook exactly when it returns. *)
Lemma __init___frame serial_port initial_identity s :
  records (__init__ serial_port initial_identity s).1 = records s
  ∧ (∀ i x, identities s !! i = Some x →
            identities (__init__ serial_port initial_identity s).1 !! i = Some x)
  ∧ match (__init__ serial_port initial_identity s).2 with
    | Return self =>
        exit_hooks (__init__ serial_port initial_identity s).1
          = (exit_hooks s ++ [self])%list
        ∧ get_identity (_serial self) (__init__ serial_port initial_identity s).1
          = Some (_identity self)
    | Raise _ =>
        exit_hooks (__init__ serial_port initial_identity s).1 = exit_hooks s
    end.
Proof.
  assert (∀ extra i x, identities s !! i = Some x →
            (identities s ++ extra)%list !! i = Some x) as Happ.
  { intros extra i x Hi. rewrite lookup_app_l; [assumption|].
    now apply lookup_lt_Some in Hi. }
  unfold __init__, bind, SerialWrapper_new, identify, bind, query, lift.
  destruct (serial_open C serial_port BAUDRATE (default_identity initial_identity)
              (world s)) as [w [[]|d]]; simpl; [|auto].
  destruct (serial_query C serial_port BAUDRATE "*IDN?" w) as [w' [line|d']]; simpl;
    [|auto].
  destruct (BoardIdentity_of (split ":" line)) as [e|resolved]; simpl; [auto|].
  destruct (decide (board_type resolved ≠ get_board_type)); simpl; [auto|].
  split; [reflexivity|]. split; [|split; [reflexivity|]].
  - intros i x Hi. rewrite list_lookup_insert_ne; [now apply Happ|].
    apply lookup_lt_Some in Hi. lia.
  - unfold get_identity. simpl. apply list_lookup_insert_eq.
    rewrite length_app. simpl. lia.
Qed.



(** ** More on the candidate validator *)



(** X2. A board that opens and answers [*IDN?] with a type other than
    [Accelerometer] is refused whatever identity was passed, manual and
    simulator ones included: the validator returns [None], logs the warning
    that quotes the returned and the expected type, and registers no exit
    hook. *)
Theorem validator_rejects_wrong_type serial_port initial_identity s w1 w2 line resolved :
  serial_open C serial_port BAUDRATE (default_identity initial_identity) (world s)
    = (w1, Reply tt) →
  serial_query C serial_port BAUDRATE "*IDN?" w1 = (w2, Reply line) →
  BoardIdentity_of (split ":" line) = inr resolved →
  board_type resolved ≠ "Accelerometer" →
  ∃ s',
    _get_valid_board serial_port initial_identity s = (s', Return None)
    ∧ world s' = w2
    ∧ records s'
      = (records s ++ [{| level := WARNING;
                          message := wrong_type_warning (C := C)
                                       (board_type resolved) "Accelerometer" |}])%list
    ∧ exit_hooks s' = exit_hooks s.
Proof.
  intros Hopen Hq Hparse Hty.
  assert (∃ s1, __init__ serial_port initial_identity s
                = (s1, Raise (IncorrectBoardError (board_type resolved) "Accelerometer"))
                ∧ world s1 = w2 ∧ records s1 = records s
                ∧ exit_hooks s1 = exit_hooks s) as (s1 & Hrun & Hw & Hrec & Hhooks).
  { unfold __init__, bind, SerialWrapper_new, identify, bind, query, lift.
    rewrite Hopen. simpl. rewrite Hq. simpl. rewrite Hparse. simpl.
    destruct (decide (board_type resolved ≠ get_board_type)); [|contradiction].
    eexists. split; [reflexivity|]. simpl. auto. }
  rewrite (validator_on_failure _ _ _ _ _ Hrun). eexists. split; [reflexivity|].
  simpl. rewrite Hrec. auto.
Qed.

(** X5. How a failure that is not a wrong type is reported when an
    identity was passed: a board type [manual] gives the warning about a
    manually specified board, even when the manufacturer is the simulator;
    otherwise the manufacturer [sbot_simulator] gives the warning about a
    simulator board. *)
Theorem validator_reports_by_origin serial_port given s s1 e :
  __init__ serial_port (Some given) s = (s1, Raise e) →
  (∀ rt et, e ≠ IncorrectBoardError rt et) →
  (board_type given = "manual" →
   _get_valid_board serial_port (Some given) s
     = (with_warning s1 (manual_warning (C := C) serial_port), Return None))
  ∧ (board_type given ≠ "manual" →
     manufacturer given = "sbot_simulator" →
     _get_valid_board serial_port (Some given) s
       = (with_warning s1 (simulator_warning (C := C) serial_port), Return None)).
Proof.
  intros Hrun Hne. rewrite (validator_on_failure _ _ _ _ _ Hrun).
  unfold after_failure.
  destruct e as [rt et| | |]; [now destruct (Hne rt et)|..];
    (split;
     [ intros Hman; destruct (decide (board_type given = "manual"));
       [reflexivity|contradiction]
     | intros Hman Hsim; destruct (decide (board_type given = "manual"));
       [contradiction|];
       destruct (decide (manufacturer given = "sbot_simulator"));
       [reflexivity|contradiction] ]).
Qed.

(** ** The ledger of a sweep *)

(** One turn of the loop: the candidate is either accepted, which adds its
    board to the exit hooks and logs nothing, or refused, which logs one
    warning and adds no hook; the identity made up from the registry has
    the simulator as manufacturer, so no refusal is silent. *)
Lemma validator_simulator_step board_info s s1 found :
  _get_valid_board (url board_info) (Some (synthetic_identity board_info)) s
    = (s1, Return found) →
  (∀ i x, identities s !! i = Some x → identities s1 !! i = Some x)
  ∧ match found with
    | Some board =>
        records s1 = records s
        ∧ exit_hooks s1 = (exit_hooks s ++ [board])%list
        ∧ get_identity (_serial board) s1 = Some (_identity board)
    | None =>
        (∃ msg, records s1
                = (records s ++ [{| level := WARNING; message := msg |}])%list)
        ∧ exit_hooks s1 = exit_hooks s
    end.
Proof.
  intros Hv.
  destruct (__init___frame (url board_info) (Some (synthetic_identity board_info)) s)
    as (Hrec & Hids & Hout).
  destruct (__init__ (url board_info) (Some (synthetic_identity board_info)) s)
    as [s0 [board|e]] eqn:E; simpl in *.
  - rewrite (validator_on_success _ _ _ _ _ E) in Hv.
    injection Hv as <- <-. destruct Hout. auto.
  - rewrite (validator_on_failure _ _ _ _ _ E) in Hv.
    injection Hv as <- <-.
    destruct (after_failure_reported (url board_info)
                (Some (synthetic_identity board_info)) e s0) as [msg ->].
    { intros [_ (given & Hgiven & _ & Hsim)].
      injection Hgiven as <-. now apply Hsim. }
    simpl. split; [assumption|]. split; [|assumption].
    exists msg. now rewrite Hrec.
Qed.

Lemma sweep_ledger candidates :
  ∀ (boards : gmap string AccelerometerBoard) s s' result,
    sweep candidates boards s = (s', Return result) →
    ∃ warnings accepted,
      records s' = (records s ++ warnings)%list
      ∧ exit_hooks s' = (exit_hooks s ++ accepted)%list
      ∧ (length warnings + length accepted = length candidates)%nat
      ∧ Forall (λ r, level r = WARNING) warnings
      ∧ result = foldl (λ m b, <[asset_tag (_identity b) := b]> m) boards accepted
      ∧ (∀ i x, identities s !! i = Some x → identities s' !! i = Some x)
      ∧ Forall (λ b, get_identity (_serial b) s' = Some (_identity b)) accepted.
Proof.
  induction candidates as [|board_info rest IH]; intros boards s s' result Hrun.
  - injection Hrun as <- <-. exists [], []. rewrite !app_nil_r.
    repeat split; auto.
  - simpl in Hrun. unfold bind in Hrun.
    destruct (validator_total (url board_info)
                (Some (synthetic_identity board_info)) s) as (s1 & found & Hv).
    rewrite Hv in Hrun.
    destruct (validator_simulator_step _ _ _ _ Hv) as [Hids Hstep].
    destruct found as [board|].
    + destruct Hstep as (Hrec & Hhooks & Hcache).
      destruct (IH _ _ _ _ Hrun)
        as (warnings & accepted & Hr & Hh & Hlen & Hlev & Hres & Hids' & Hall).
      exists warnings, (board :: accepted).
      split; [congruence|].
      split; [rewrite Hh, Hhooks, <- app_assoc; reflexivity|].
      split; [simpl; lia|]. split; [assumption|]. split; [assumption|].
      split; [auto|]. constructor; [|assumption].
      unfold get_identity in *. auto.
    + destruct Hstep as ([msg Hrec] & Hhooks).
      destruct (IH _ _ _ _ Hrun)
        as (warnings & accepted & Hr & Hh & Hlen & Hlev & Hres & Hids' & Hall).
      exists ({| level := WARNING; message := msg |} :: warnings), accepted.
      split; [rewrite Hr, Hrec, <- app_assoc; reflexivity|].
      split; [congruence|].
      split; [simpl; lia|]. split; [now constructor|]. split; [assumption|].
      split; [auto|assumption].
Qed.

Lemma foldl_insert_lookup (accepted : list AccelerometerBoard) :
  ∀ (m : gmap string AccelerometerBoard) key,
    foldl (λ m b, <[asset_tag (_identity b) := b]> m) m accepted !! key
    = match last (filter (λ b, asset_tag (_identity b) = key) accepted) with
      | Some b => Some b
      | None => m !! key
      end.
Proof.
  induction accepted as [|a rest IH]; intros m key; simpl; [reflexivity|].
  rewrite IH, filter_cons.
  destruct (decide (asset_tag (_identity a) = key)) as [Heq|Hne].
  - rewrite last_cons.
    destruct (last (filter (λ b, asset_tag (_identity b) = key) rest));
      [reflexivity|]. rewrite Heq. apply lookup_insert_eq.
  - destruct (last (filter (λ b, asset_tag (_identity b) = key) rest));
      [reflexivity|]. now apply lookup_insert_ne.
Qed.

Lemma foldl_insert_size (accepted : list AccelerometerBoard) :
  ∀ (m : gmap string AccelerometerBoard),
    (size (foldl (λ m b, <[asset_tag (_identity b) := b]> m) m accepted)
     ≤ size m + length accepted)%nat.
Proof.
  induction accepted as [|a rest IH]; intros m; simpl; [lia|].
  etransitivity; [apply IH|]. rewrite map_size_insert.
  destruct (m !! asset_tag (_identity a)); simpl; lia.
Qed.


(** X7. The mapping a sweep returns is read off the boards it accepted, in
    the order it accepted them: under each key it holds the last accepted
    board that reported that asset tag, and it has no other key.  So when
    two boards report the same tag the later one replaces the earlier one
    in the mapping, while both keep their exit hook. *)
Theorem sweep_mapping_is_last_accepted s s' boards :
  _get_simulator_boards s = (s', Return boards) →
  ∃ accepted,
    exit_hooks s' = (exit_hooks s ++ accepted)%list
    ∧ ∀ key,
        boards !! key
        = last (filter (λ b, asset_tag (_identity b) = key) accepted).
Proof.
  intros Hrun. unfold _get_simulator_boards in Hrun.
  destruct (sweep_ledger _ _ _ _ _ Hrun)
    as (warnings & accepted & _ & Hh & _ & _ & Hres & _).
  exists accepted. split; [assumption|].
  intros key. rewrite Hres, foldl_insert_lookup, lookup_empty.
  now destruct (last _).
Qed.

(** X8. The mapping never has more entries than boards were accepted, nor
    more accepted boards than the registry has candidates. *)
Theorem sweep_size_bound s s' boards :
  _get_simulator_boards s = (s', Return boards) →
  (size boards ≤ length (exit_hooks s') - length (exit_hooks s))%nat
  ∧ (length (exit_hooks s') - length (exit_hooks s)
     ≤ length (get_simulator_boards C "AccelerometerBoard" (world s)))%nat.
Proof.
  intros Hrun. unfold _get_simulator_boards in Hrun.
  destruct (sweep_ledger _ _ _ _ _ Hrun)
    as (warnings & accepted & _ & Hh & Hlen & _ & Hres & _).
  rewrite Hh, length_app.
  pose proof (foldl_insert_size accepted ∅) as Hsize.
  rewrite map_size_empty in Hsize. rewrite <- Hres in Hsize.
  split; lia.
Qed.

(** X9. When a sweep ends, every board of the mapping is among the exit
    hooks, and the transport it owns caches the identity the board holds,
    the one the device reported; boards constructed later in the same sweep
    have not disturbed it. *)
Theorem sweep_boards_are_hooked_and_cached s s' boards key board :
  _get_simulator_boards s = (s', Return boards) →
  boards !! key = Some board →
  board ∈ exit_hooks s'
  ∧ get_identity (_serial board) s' = Some (_identity board).
Proof.
  intros Hrun Hlook. unfold _get_simulator_boards in Hrun.
  destruct (sweep_ledger _ _ _ _ _ Hrun)
    as (warnings & accepted & _ & Hh & _ & _ & Hres & _ & Hall).
  assert (board ∈ accepted) as Hin.
  { rewrite Hres, foldl_insert_lookup, lookup_empty in Hlook.
    destruct (last (filter _ accepted)) as [b|] eqn:Hlast; [|discriminate].
    injection Hlook as ->.
    apply last_Some_elem_of in Hlast.
    now apply list_elem_of_filter in Hlast as [_ ?]. }
  split.
  - rewrite Hh. apply elem_of_app. now right.
  - rewrite Forall_forall in Hall. now apply Hall.
Qed.


(** ** More on identification *)

(** X11. Identification loses nothing of the reply: joining with colons
    the fields of the identity that the reply filled gives the reply back. *)
Theorem identify_keeps_the_reply serial s w line :
  serial_query C (port serial) (baud serial) "*IDN?" (world s) = (w, Reply line) →
  (length (split ":" line) ≤ 4)%nat →
  ∃ ident,
    identify serial s = (with_world s w, Return ident)
    ∧ join ":" (take (length (split ":" line)) (fields_of ident)) = line.
Proof.
  intros Hq Hlen. unfold identify, bind. rewrite (query_reply _ _ _ _ _ Hq).
  destruct (BoardIdentity_of_short _ Hlen) as (ident & -> & Hfields).
  exists ident. split; [reflexivity|].
  rewrite Hfields, take_app_length. apply join_split.
Qed.

(** X12. No field of an identity held by a board of the mapping contains a
    colon, and neither does any key of the mapping. *)
Theorem sweep_keys_have_no_colon s s' boards key board :
  _get_simulator_boards s = (s', Return boards) →
  boards !! key = Some board →
  sep_free ":" key ∧ Forall (sep_free ":") (fields_of (_identity board)).
Proof.
  intros Hrun Hlook. unfold _get_simulator_boards in Hrun.
  destruct (sweep_invariant
              (λ key board, sep_free ":" key
                            ∧ Forall (sep_free ":") (fields_of (_identity board)))
              (get_simulator_boards C "AccelerometerBoard" (world s)) ∅ s)
    as (s'' & result & Heq & Hall).
  - intros k b Hk. now rewrite lookup_empty in Hk.
  - intros board_info s1 s2 b _ Hv.
    destruct (constructed_board _ _ _ _ _ (validator_found _ _ _ _ _ Hv))
      as (_ & _ & s3 & w & line & _ & Hparse).
    assert (Forall (sep_free ":") (fields_of (_identity b))) as Hfields.
    { apply (BoardIdentity_of_fields _ _ _ Hparse); [exact I|].
      apply split_fields_sep_free. }
    split; [|assumption].
    unfold fields_of in Hfields.
    inversion Hfields as [|? ? _ H1]; subst.
    inversion H1 as [|? ? _ H2]; subst.
    now inversion H2.
  - rewrite Heq in Hrun. injection Hrun as _ <-. now apply Hall.
Qed.

(** ** More on the commands *)

Lemma floats_first_refused accepted x rest :
  Forall (λ y, is_Some (float C y)) accepted →
  float C x = None →
  floats (C := C) (accepted ++ x :: rest) = inl (ValueError x).
Proof.
  intros Hall Hx. induction Hall as [|y ys [v Hv] _ IH]; simpl.
  - now rewrite Hx.
  - now rewrite Hv, IH.
Qed.

(** X13. When some field of the reply to [ACC:READ?] is refused by
    [float], [acceleration] raises [ValueError] for the first such field,
    whatever follows it; nothing is returned for the fields before it. *)
Theorem acceleration_first_refused_field self s w line accepted x rest :
  serial_query C (port (_serial self)) (baud (_serial self)) "ACC:READ?" (world s)
    = (w, Reply line) →
  split ":" line = (accepted ++ x :: rest)%list →
  Forall (λ y, is_Some (float C y)) accepted →
  float C x = None →
  acceleration self s = (with_world s w, Raise (ValueError x)).
Proof.
  intros Hq Hsplit Hall Hx. unfold acceleration, bind.
  rewrite (query_reply _ _ _ _ _ Hq), Hsplit.
  now rewrite (floats_first_refused _ _ _ Hall Hx).
Qed.


(** ** Which replies make a board *)

(** X15. For a port that opens and answers [*IDN?], the validator returns
    a board exactly when the reply has at most four colon-separated fields
    and the second of them is [Accelerometer]; the other fields, the
    asset tag included, may be anything, even absent. *)
Theorem validator_accepts_iff serial_port initial_identity s w1 w2 line :
  serial_open C serial_port BAUDRATE (default_identity initial_identity) (world s)
    = (w1, Reply tt) →
  serial_query C serial_port BAUDRATE "*IDN?" w1 = (w2, Reply line) →
  (∃ s' board,
      _get_valid_board serial_port initial_identity s = (s', Return (Some board)))
  ↔ (length (split ":" line) ≤ 4)%nat
    ∧ split ":" line !! 1%nat = Some "Accelerometer".
Proof.
  intros Hopen Hq.
  assert (∀ s1 r, __init__ serial_port initial_identity s = (s1, r) →
            (∃ board, r = Return board)
            ↔ (length (split ":" line) ≤ 4)%nat
              ∧ split ":" line !! 1%nat = Some "Accelerometer") as Hinit.
  { intros s1 r. unfold __init__, bind, SerialWrapper_new, identify, bind, query, lift.
    rewrite Hopen. simpl. rewrite Hq. simpl.
    destruct (split ":" line) as [|m [|b [|a [|v [|x rest]]]]]; simpl;
      try (destruct (decide (_ ≠ get_board_type)) as [Hne|Heq];
           [|apply dec_stable in Heq]);
      intros [= <- <-]; unfold get_board_type in *; simpl in *;
      (split; [intros [board [=]] | intros [Hlen Hsnd]]);
      try discriminate; try lia; try congruence; eauto;
      try (split; [lia|congruence]). }
  destruct (__init__ serial_port initial_identity s) as [s1 [board|e]] eqn:E.
  - rewrite (validator_on_success _ _ _ _ _ E).
    rewrite <- (Hinit s1 (Return board) eq_refl). split; eauto.
  - rewrite (validator_on_failure _ _ _ _ _ E).
    rewrite <- (Hinit s1 (Raise e) eq_refl).
    split; [intros (? & ? & [=]) | intros [? [=]]].
Qed.

End Further.

(** * The further properties on the test bench *)

Section FurtherOnTheBench.

Import Bench.



(** X2, on the bench: the servo board is refused although it was passed
    as a manually specified accelerometer. *)
Lemma validator_rejects_wrong_type_witness :
  ∃ s',
    _get_valid_board "sim://servo0" (Some manual_simulator_identity) boot
      = (s', Return None)
    ∧ world s' = lab
    ∧ records s'
      = [{| level := WARNING;
            message := "Board returned type 'Servo', expected 'Accelerometer'. Ignoring this device" |}]
    ∧ exit_hooks s' = [].
Proof.
  refine (validator_rejects_wrong_type (C := collaborators true)
            "sim://servo0" (Some manual_simulator_identity) boot lab lab
            "Acme:Servo:SN2:4.3"
            {| manufacturer := "Acme"; board_type := "Servo";
               asset_tag := "SN2"; software_version := "4.3" |}
            eq_refl eq_refl eq_refl _).
  discriminate.
Defined.

(** X5, on the bench: the port cannot be opened and the identity is both
    manual and from the simulator; the manual warning is the one logged. *)
Lemma validator_reports_by_origin_witness :
  _get_valid_board "sim://gone" (Some manual_simulator_identity) boot
  = (with_warning boot
       "Manually specified accelerometer board at port 'sim://gone', could not be identified. Ignoring this device",
     Return None).
Proof.
  refine (proj1 (validator_reports_by_origin (C := collaborators true)
                   "sim://gone" manual_simulator_identity boot boot
                   (TransportError "could not open port") eq_refl _) eq_refl).
  discriminate.
Defined.

Lemma twins_sweep :
  _get_simulator_boards twins_boot
  = ((_get_simulator_boards twins_boot).1, Return twins_mapping).
Proof. vm_compute. reflexivity. Defined.


(** X7, on the bench: both twins report [SN1]; the mapping holds the one
    accepted last. *)
Lemma sweep_mapping_is_last_accepted_witness :
  twins_mapping !! "SN1" = Some twin_b
  ∧ ∃ accepted,
      exit_hooks (_get_simulator_boards twins_boot).1 = ([] ++ accepted)%list
      ∧ ∀ key,
          twins_mapping !! key
          = last (filter (λ b, asset_tag (_identity b) = key) accepted).
Proof.
  split; [reflexivity|].
  exact (sweep_mapping_is_last_accepted twins_boot _ twins_mapping twins_sweep).
Defined.

(** X8, on the bench: one entry, two accepted boards, three candidates. *)
Lemma sweep_size_bound_witness :
  (size twins_mapping
   ≤ length (exit_hooks (_get_simulator_boards twins_boot).1) - 0)%nat
  ∧ (length (exit_hooks (_get_simulator_boards twins_boot).1) - 0 ≤ 3)%nat.
Proof.
  exact (sweep_size_bound twins_boot _ twins_mapping twins_sweep).
Defined.

(** X9, on the bench: the surviving twin is hooked and its transport
    caches what it reported. *)
Lemma sweep_boards_are_hooked_and_cached_witness :
  twin_b ∈ exit_hooks (_get_simulator_boards twins_boot).1
  ∧ get_identity (_serial twin_b) (_get_simulator_boards twins_boot).1
    = Some (_identity twin_b).
Proof.
  exact (sweep_boards_are_hooked_and_cached twins_boot _ twins_mapping
           "SN1" twin_b twins_sweep eq_refl).
Defined.

(** X11, on the bench: a reply of two fields is recovered from the first
    two fields of the identity. *)
Lemma identify_keeps_the_reply_witness :
  ∃ ident,
    identify (wrapper "sim://short") boot = (with_world boot lab, Return ident)
    ∧ join ":" (take 2 (fields_of ident)) = "Acme:Accelerometer".
Proof.
  refine (identify_keeps_the_reply (C := collaborators true)
            (wrapper "sim://short") boot lab "Acme:Accelerometer" eq_refl _).
  simpl. lia.
Defined.

(** X12, on the bench. *)
Lemma sweep_keys_have_no_colon_witness :
  sep_free ":" "SN1" ∧ Forall (sep_free ":") (fields_of (_identity twin_b)).
Proof.
  exact (sweep_keys_have_no_colon twins_boot _ twins_mapping "SN1" twin_b
           twins_sweep eq_refl).
Defined.

(** X13, on the bench: the reply [1.0:x:3.0] fails at its second field. *)
Lemma acceleration_first_refused_field_witness :
  acceleration twin_a twins_boot = (with_world twins_boot twins, Raise (ValueError "x")).
Proof.
  refine (acceleration_first_refused_field (C := collaborators true)
            twin_a twins_boot twins "1.0:x:3.0" ["1.0"] "x" ["3.0"]
            eq_refl eq_refl _ eq_refl).
  repeat constructor. eexists. reflexivity.
Defined.

(** X15, on the bench: [sim://short] answers [Acme:Accelerometer] and
    nothing more; a board comes out of it. *)
Lemma validator_accepts_iff_witness :
  ∃ s' board, _get_valid_board "sim://short" None boot = (s', Return (Some board)).
Proof.
  apply (proj2 (validator_accepts_iff (C := collaborators true)
                  "sim://short" None boot lab lab "Acme:Accelerometer"
                  eq_refl eq_refl)).
  split; [simpl; lia|reflexivity].
Defined.

End FurtherOnTheBench.
